(** * cc_grub_dpkg: configure the grub debconf installation device

    A shallow embedding of [cloudinit/config/cc_grub_dpkg.py] and the
    properties of its decision logic.

    Python values are modelled as follows.
    - [str] is [string]; a character is one code point below 256.
    - A [dict] with string keys is a [gmap string _].
    - The external world (sub-processes and the file system) is a record
      of oracles, [World]; it does not change during one run.
    - A function that logs, runs commands and may raise is a computation
      in [M]: it yields the chronological list of its events together with
      either a value or the exception that left it. *)

From Stdlib Require Import Ascii String NArith List Bool.
From stdpp Require Import base option strings gmap sorting.
Import ListNotations.

(** ** Python string primitives *)

Module Py.

(** [str.isspace] on one character (code points below 256). *)
Definition isspace (c : ascii) : bool :=
  let n := N_of_ascii c in
  ((9 <=? n) && (n <=? 13) || (28 <=? n) && (n <=? 32)
   || (n =? 133) || (n =? 160))%N.

(** The line boundaries of [str.splitlines], carriage return apart. *)
Definition islinebreak (c : ascii) : bool :=
  let n := N_of_ascii c in
  ((10 <=? n) && (n <=? 12) || (28 <=? n) && (n <=? 30) || (n =? 133))%N.

Definition lower_char (c : ascii) : ascii :=
  let n := N_of_ascii c in
  if ((65 <=? n) && (n <=? 90)
      || (192 <=? n) && (n <=? 222) && negb (n =? 215))%N
  then ascii_of_N (n + 32) else c.

(** [s.lower()] *)
Fixpoint lower (s : string) : string :=
  match s with
  | EmptyString => EmptyString
  | String c s' => String (lower_char c) (lower s')
  end.

Fixpoint lstrip (s : string) : string :=
  match s with
  | EmptyString => EmptyString
  | String c s' => if isspace c then lstrip s' else s
  end.

Fixpoint rstrip (s : string) : string :=
  match s with
  | EmptyString => EmptyString
  | String c s' =>
      match rstrip s' with
      | EmptyString => if isspace c then EmptyString else String c EmptyString
      | r => String c r
      end
  end.

(** [s.strip()] *)
Definition strip (s : string) : string := rstrip (lstrip s).

Fixpoint split_go (cur : string) (s : string) : list string :=
  match s with
  | EmptyString => match cur with EmptyString => [] | _ => [String.rev cur] end
  | String c s' =>
      if isspace c
      then match cur with
           | EmptyString => split_go EmptyString s'
           | _ => String.rev cur :: split_go EmptyString s'
           end
      else split_go (String c cur) s'
  end.

(** [s.split()]: the maximal runs of non-whitespace characters. *)
Definition split (s : string) : list string := split_go EmptyString s.

Fixpoint splitlines_go (cur : string) (s : string) : list string :=
  match s with
  | EmptyString => match cur with EmptyString => [] | _ => [String.rev cur] end
  | String c s' =>
      if Ascii.eqb c "013"%char
      then match s' with
           | String c' s'' =>
               if Ascii.eqb c' "010"%char
               then String.rev cur :: splitlines_go EmptyString s''
               else String.rev cur :: splitlines_go EmptyString s'
           | EmptyString => [String.rev cur]
           end
      else if islinebreak c
      then String.rev cur :: splitlines_go EmptyString s'
      else splitlines_go (String c cur) s'
  end.

(** [s.splitlines()] *)
Definition splitlines (s : string) : list string :=
  splitlines_go EmptyString s.

(** [needle in hay] on strings. *)
Fixpoint str_in (needle hay : string) : bool :=
  match hay with
  | EmptyString => String.prefix needle EmptyString
  | String _ hay' => String.prefix needle hay || str_in needle hay'
  end.

(** [sep.join(l)] *)
Definition join (sep : string) (l : list string) : string :=
  String.concat sep l.

(** [sorted(l)] on a list of strings: code-point lexicographic order. *)
Definition sorted (l : list string) : list string :=
  merge_sort String.le l.

(** [x in l] for a list of strings. *)
Definition str_in_list (x : string) (l : list string) : bool :=
  existsb (String.eqb x) l.

(** Truth value of a string. *)
Definition truthy (s : string) : bool :=
  match s with EmptyString => false | _ => true end.

End Py.

#[global] Arguments Py.strip : simpl never.
#[global] Arguments Py.split : simpl never.
#[global] Arguments Py.splitlines : simpl never.
#[global] Arguments Py.sorted : simpl never.
#[global] Arguments Py.join : simpl never.
#[global] Arguments Py.lower : simpl never.

(** ** Values, exceptions, events *)

(** A value of the configuration mapping: the YAML document gives native
    booleans, strings, or nothing ([None]). *)
Inductive pyval : Type :=
  | PyNone
  | PyBool (b : bool)
  | PyStr (s : string).

(** The value found under a top-level key of the cloud-config: a mapping,
    or [None] for a key written without content. *)
Inductive section : Type :=
  | SecNone
  | SecDict (d : gmap string pyval).

(** [str(v)] *)
Definition py_str (v : pyval) : string :=
  match v with
  | PyNone => "None"
  | PyBool true => "True"
  | PyBool false => "False"
  | PyStr s => s
  end.

(** [str(b).lower()] for a native boolean. *)
Definition bool_lower (b : bool) : string :=
  Py.lower (py_str (PyBool b)).

(** What [ProcessExecutionError.reason] holds. *)
Inductive Reason : Type :=
  | FileNotFoundError
  | OtherReason (descr : string).

Definition isinstance_FileNotFoundError (r : Reason) : bool :=
  match r with FileNotFoundError => true | OtherReason _ => false end.

(** The exceptions of the module: [subp.ProcessExecutionError], with the
    two attributes the module inspects, and any other [Exception]. *)
Inductive exn : Type :=
  | ProcessExecutionError (reason : Reason) (stderr : string)
  | OtherException (descr : string).

Inductive Result (A : Type) : Type :=
  | Ok (a : A)
  | Raise (e : exn).
Arguments Ok {A} a.
Arguments Raise {A} e.

Inductive Level : Type := DEBUG | WARNING.

Inductive LogArg : Type :=
  | LStr (s : string)
  | LVal (v : pyval)
  | LExn (e : exn).

(** What a run does to the outside: the commands it starts, with their
    standard input, and the records it hands to the logger (format string
    and arguments, as [logging] keeps them). *)
Inductive Event : Type :=
  | Subp (args : list string) (data : option string)
  | Log (lvl : Level) (msg : string) (args : list LogArg).

(** The collaborators: [subp.subp], returning [(stdout, stderr)] or
    raising, and [os.path.exists]. *)
Record World : Type := {
  run_subp : list string -> option string -> Result (string * string);
  path_exists : string -> bool
}.

(** ** Computations: a trace of events and a result *)

Definition M (A : Type) : Type := (list Event * Result A)%type.

Definition trace {A} (m : M A) : list Event := fst m.
Definition result {A} (m : M A) : Result A := snd m.

#[global] Instance M_ret : MRet M := fun A a => ([], Ok a).

#[global] Instance M_bind : MBind M := fun A B f m =>
  match m with
  | (t, Ok a) => let '(t', r) := f a in (t ++ t', r)
  | (t, Raise e) => (t, Raise e)
  end.

Definition raise {A} (e : exn) : M A := ([], Raise e).

(** [try: m except ...: handler e].  An exception raised by the handler
    itself leaves the statement: sibling [except] clauses do not see it. *)
Definition try_except {A} (m : M A) (handler : exn -> M A) : M A :=
  match m with
  | (t, Ok a) => (t, Ok a)
  | (t, Raise e) => let '(t', r) := handler e in (t ++ t', r)
  end.

Definition emit (ev : Event) : M unit := ([ev], Ok tt).

Definition log_debug (msg : string) (args : list LogArg) : M unit :=
  emit (Log DEBUG msg args).

(** [ev] starts the program [prog]. *)
Definition starts (prog : string) (ev : Event) : bool :=
  match ev with
  | Subp (p :: _) _ => String.eqb p prog
  | _ => false
  end.

(** No event of the trace [t] starts the program [prog]. *)
Definition never_starts (prog : string) (t : list Event) : bool :=
  forallb (fun ev => negb (starts prog ev)) t.

(** [ev] is a log record. *)
Definition is_log (ev : Event) : bool :=
  match ev with Log _ _ _ => true | Subp _ _ => false end.

(** ** The helpers of [cloudinit.util] *)

Module util.

(** Modelled from the spec: [cloudinit/util.py] is not among the sources.
    The spec names "true", "yes" and "1" as truthy strings and leaves the
    list open; these are the tables of [util]. *)
Definition TRUE_STRINGS : list string := ["true"; "1"; "on"; "yes"].
Definition FALSE_STRINGS : list string := ["off"; "0"; "no"; "false"].

(** Modelled from the spec: [util.is_true], the relaxed truthy
    interpretation: a native boolean is itself, anything else is true
    when its text, lower-cased and trimmed, is a truthy string. *)
Definition is_true (val : pyval) : bool :=
  match val with
  | PyBool b => b
  | _ => Py.str_in_list (Py.strip (Py.lower (py_str val))) TRUE_STRINGS
  end.

(** Modelled from the spec: [util.is_false], the relaxed falsy
    interpretation used for [enabled]. *)
Definition is_false (val : pyval) : bool :=
  match val with
  | PyBool b => negb b
  | _ => Py.str_in_list (Py.strip (Py.lower (py_str val))) FALSE_STRINGS
  end.

(** Modelled from the spec: [util.translate_bool], the relaxed parser
    applied to a value that is not a native boolean; whatever Python
    holds false is false. *)
Definition translate_bool (val : pyval) : bool :=
  match val with
  | PyNone => false
  | PyBool b => b
  | PyStr s => if Py.truthy s then is_true val else false
  end.

(** Modelled from the spec: [util.get_cfg_option_str], the value under
    [key] as a string when the key is present, [default] otherwise. *)
Definition get_cfg_option_str (yobj : gmap string pyval) (key : string)
    (default : option string) : option string :=
  match yobj !! key with
  | None => default
  | Some val => Some (py_str val)
  end.

(** Modelled from the spec: [util.logexc], which logs the failure it is
    given; one record at warning level stands for it. *)
Definition logexc (msg : string) (args : list LogArg) : M unit :=
  emit (Log WARNING msg args).

End util.

(** ** The module *)

(** The newline character, as a string. *)
Definition nl : string := String "010"%char EmptyString.

Definition valid_efi_owners : list string :=
  ["grub-efi-amd64"; "grub-efi-arm64"; "grub-efi-ia32"].

(** The loop of [get_debconf_owner]: the first line, in the order given,
    whose trimmed text is a valid owner. *)
Fixpoint scan_owners (lines : list string) : option string :=
  match lines with
  | [] => None
  | line :: rest =>
      if Py.str_in_list (Py.strip line) valid_efi_owners
      then Some (Py.strip line)
      else scan_owners rest
  end.

Section cc_grub_dpkg.

Variable w : World.

(** [subp.subp(args, data)], [capture] being on. *)
Definition subp (args : list string) (data : option string)
    : M (string * string) :=
  ([Subp args data], run_subp w args data).

(** Fetches the /dev/disk/by-id device grub is installed to; falls back
    to the plain disk name if no by-id entry is present. *)
Definition fetch_idevs (mount_point : string) : M string :=
  disk ← try_except
    (out ← subp ["grub-probe"; "-t"; "disk"; mount_point] None;
     mret (Py.strip out.1))
    (fun e =>
       match e with
       | ProcessExecutionError reason stderr =>
           if isinstance_FileNotFoundError reason then
             log_debug "'grub-probe' not found in $PATH" [];; mret ""
           else if Py.str_in "failed to get canonical path" stderr then
             log_debug "grub-probe 'failed to get canonical path'" [];;
             mret ""
           else
             raise e
       | OtherException _ =>
           util.logexc "grub-probe failed to execute for grub-dpkg" [];;
           mret ""
       end);
  if negb (Py.truthy disk) || negb (path_exists w disk) then
    mret ""
  else
    devices ← try_except
      (out ← subp ["udevadm"; "info"; "--root"; "--query=symlink"; disk]
               None;
       mret (Py.split (Py.strip out.1)))
      (fun _ =>
         util.logexc "udevadm DEVLINKS symlink query failed for disk='%s'"
           [LStr disk];;
         mret []);
    log_debug "considering these device symlinks: %s"
      [LStr (Py.join "," devices)];;
    let devices := List.filter (Py.str_in "disk/by-id") devices in
    log_debug "filtered to these disk/by-id symlinks: %s"
      [LStr (Py.join "," devices)];;
    idevs ← match devices with
            | [] => mret disk
            | _ :: _ =>
                match Py.sorted devices with
                | first :: _ => mret first
                | [] => raise (OtherException "IndexError")
                end
            end;
    log_debug "selected %s" [LStr idevs];;
    mret idevs.

(** [os.path.exists] answers [False] on an [OSError] rather than raise,
    so the handler of the source is never entered. *)
Definition is_efi_booted : M bool :=
  mret (path_exists w "/sys/firmware/efi").

Definition get_debconf_owner : M (option string) :=
  efi ← is_efi_booted;
  if negb efi then
    mret (Some "grub-pc")
  else
    try_except
      (out ← subp ["debconf-show"; "--listowners"] None;
       mret (scan_owners (Py.splitlines out.1)))
      (fun e =>
         util.logexc
           "Failed to run debconf-set-selections for grub-dpkg: %s"
           [LExn e];;
         mret None).

(** The debconf config for grub-pc or grub-efi, depending on the boot
    mode of the system. *)
Definition get_debconf_config (mycfg : gmap string pyval)
    : M (option string) :=
  efi ← is_efi_booted;
  if (efi : bool) then
    owner ← get_debconf_owner;
    match owner with
    | None => mret None
    | Some owner =>
        idevs ← match util.get_cfg_option_str mycfg
                        "grub-efi/install_devices" None with
                | None => fetch_idevs "/boot/efi"
                | Some idevs => mret idevs
                end;
        mret (Some (owner +:+ " grub-efi/install_devices string "
                      +:+ idevs +:+ nl))
    end
  else
    idevs ← match util.get_cfg_option_str mycfg
                    "grub-pc/install_devices" None with
            | None => fetch_idevs "/boot"
            | Some idevs => mret idevs
            end;
    let idevs_empty :=
      match default PyNone (mycfg !! "grub-pc/install_devices_empty") with
      | PyNone => negb (Py.truthy idevs)
      | PyBool b => b
      | PyStr s => util.translate_bool (PyStr s)
      end in
    let idevs_empty := bool_lower idevs_empty in
    mret (Some ("grub-pc grub-pc/install_devices string "
                  +:+ idevs +:+ nl
                  +:+ "grub-pc grub-pc/install_devices_empty boolean "
                  +:+ idevs_empty +:+ nl)).

Definition handle (name : string) (cfg : gmap string section) : M unit :=
  let mycfg :=
    match cfg !! "grub_dpkg" with
    | Some v => v
    | None => default (SecDict ∅) (cfg !! "grub-dpkg")
    end in
  let mycfg :=
    match mycfg with
    | SecNone => ∅
    | SecDict d => d
    end in
  let enabled := default (PyBool true) (mycfg !! "enabled") in
  if util.is_false enabled then
    log_debug "%s disabled by config grub_dpkg/enabled=%s"
      [LStr name; LVal enabled]
  else
    dconf_sel ← get_debconf_config mycfg;
    match dconf_sel with
    | None => log_debug "%s no debconf config returned" [LStr name]
    | Some dconf_sel =>
        log_debug ("Setting grub debconf-set-selections with '"
                     +:+ dconf_sel +:+ "'") [];;
        try_except
          (subp ["debconf-set-selections"] (Some dconf_sel);; mret tt)
          (fun e =>
             util.logexc
               "Failed to run debconf-set-selections for grub-dpkg: %s"
               [LExn e])
    end.

End cc_grub_dpkg.

(** ** The text of the directives, as the specification words them *)

(** The two lines of the BIOS directive, for an identifier and a rendered
    boolean. *)
Definition bios_directive (idevs idevs_empty : string) : string :=
  "grub-pc grub-pc/install_devices string " +:+ idevs +:+ nl
  +:+ "grub-pc grub-pc/install_devices_empty boolean " +:+ idevs_empty +:+ nl.

(** The one line of the EFI directive. *)
Definition efi_directive (owner idevs : string) : string :=
  owner +:+ " grub-efi/install_devices string " +:+ idevs +:+ nl.

(** The argument vectors of the collaborators. *)
Definition probe_cmd (mount_point : string) : list string :=
  ["grub-probe"; "-t"; "disk"; mount_point].
Definition symlink_cmd (disk : string) : list string :=
  ["udevadm"; "info"; "--root"; "--query=symlink"; disk].
Definition owners_cmd : list string := ["debconf-show"; "--listowners"].

(** The alias list [fetch_idevs] works on for [disk]: the words of the
    symlink query's output, or nothing when the query fails. *)
Definition aliases_of (w : World) (disk : string) : list string :=
  match run_subp w (symlink_cmd disk) None with
  | Ok out => Py.split (Py.strip out.1)
  | Raise _ => []
  end.

(** A failure of the probe that the module takes for a benign one: the
    executable is missing, or stderr reports a canonicalization failure. *)
Definition benign_probe_failure (reason : Reason) (stderr : string) : bool :=
  isinstance_FileNotFoundError reason
  || Py.str_in "failed to get canonical path" stderr.

(** The configuration the module works on: the mapping under [grub_dpkg],
    or under the alias [grub-dpkg] when [grub_dpkg] is absent; empty when
    there is none. *)
Definition effective_cfg (cfg : gmap string section) : gmap string pyval :=
  match cfg !! "grub_dpkg" with
  | Some (SecDict d) => d
  | Some SecNone => ∅
  | None =>
      match cfg !! "grub-dpkg" with
      | Some (SecDict d) => d
      | _ => ∅
      end
  end.

(** The [enabled] field evaluates false. *)
Definition disabled (mycfg : gmap string pyval) : bool :=
  match mycfg !! "enabled" with
  | Some v => util.is_false v
  | None => false
  end.

(** The resolved device identifier of a branch: the value configured
    under [key] when the key is present, the result of the prober for
    [mount_point] otherwise. *)
Definition resolved_idevs (w : World) (mycfg : gmap string pyval)
    (key mount_point : string) : Result string :=
  match mycfg !! key with
  | Some v => Ok (py_str v)
  | None => result (fetch_idevs w mount_point)
  end.

(** What [handle] does once the module is found enabled. *)
Definition handle_enabled (w : World) (name : string)
    (mycfg : gmap string pyval) : M unit :=
  dconf_sel ← get_debconf_config w mycfg;
  match dconf_sel with
  | None => log_debug "%s no debconf config returned" [LStr name]
  | Some dconf_sel =>
      log_debug ("Setting grub debconf-set-selections with '"
                   +:+ dconf_sel +:+ "'") [];;
      try_except
        (subp w ["debconf-set-selections"] (Some dconf_sel);; mret tt)
        (fun e =>
           util.logexc
             "Failed to run debconf-set-selections for grub-dpkg: %s"
             [LExn e])
  end.

(** [m] goes on to the formatter for [mycfg], and hands the directive, if
    there is one, to the setter. *)
Definition proceeds (w : World) (mycfg : gmap string pyval) (m : M unit)
    : Prop :=
  exists rest,
    trace m = trace (get_debconf_config w mycfg) ++ rest
    /\ forall dconf_sel,
         result (get_debconf_config w mycfg) = Ok (Some dconf_sel) ->
         In (Subp ["debconf-set-selections"] (Some dconf_sel)) rest.

(** The commands a trace starts, in order, each with what it is given on
    standard input. *)
Fixpoint commands (t : list Event) : list (list string * option string) :=
  match t with
  | [] => []
  | Subp args data :: t' => (args, data) :: commands t'
  | Log _ _ _ :: t' => commands t'
  end.



(** ** Sample systems *)

(** A system whose only disk is [/dev/sdb], with the answers of the probe,
    of the symlink query and of the owner listing as given; the setter
    succeeds. *)
Definition sample_world (efi : bool)
    (probe symlinks owners : Result (string * string)) : World :=
  {| run_subp args data :=
       match args with
       | "grub-probe" :: _ => probe
       | "udevadm" :: _ => symlinks
       | "debconf-show" :: _ => owners
       | _ => Ok ("", "")
       end;
     path_exists p :=
       if String.eqb p "/sys/firmware/efi" then efi
       else String.eqb p "/dev/sdb" |}.

Definition sdb_probe : Result (string * string) := Ok ("/dev/sdb" +:+ nl, "").

Definition sdb_symlinks : Result (string * string) :=
  Ok ("/dev/disk/by-path/pci-0:1 /dev/disk/by-id/wwn-0x5 "
        +:+ "/dev/disk/by-id/ata-XYZ" +:+ nl, "").

Definition no_owners : Result (string * string) := Ok ("", "").

(** A BIOS machine with a probed disk that has two by-id aliases. *)
Definition bios_sdb : World :=
  sample_world false sdb_probe sdb_symlinks no_owners.

(** A BIOS machine whose probe fails for a reason the module does not
    know: the executable ran and exited with an error. *)
Definition bios_probe_broken : World :=
  sample_world false
    (Raise (ProcessExecutionError
              (OtherReason "Unexpected error while running command.")
              "grub-probe: error: unknown filesystem."))
    sdb_symlinks no_owners.

(** An EFI machine whose owner listing names the amd64 package. *)
Definition efi_amd64 : World :=
  sample_world true sdb_probe sdb_symlinks
    (Ok ("grub-efi-amd64" +:+ nl, "")).

(** An EFI machine whose owner listing names the ia32 package, padded,
    before the amd64 one. *)
Definition efi_ia32_first : World :=
  sample_world true sdb_probe sdb_symlinks
    (Ok ("shim-signed" +:+ nl +:+ "  grub-efi-ia32 " +:+ nl
           +:+ "grub-efi-amd64" +:+ nl, "")).

(** An EFI machine whose owner listing names no EFI package. *)
Definition efi_no_owner : World :=
  sample_world true sdb_probe sdb_symlinks (Ok ("grub-pc" +:+ nl, "")).

(** A BIOS container: grub-probe is not installed. *)
Definition bios_container : World :=
  sample_world false (Raise (ProcessExecutionError FileNotFoundError "-"))
    sdb_symlinks no_owners.


(** The BIOS machine [bios_sdb], its aliases listed in another order. *)
Definition bios_sdb_reordered : World :=
  sample_world false sdb_probe
    (Ok ("/dev/disk/by-id/ata-XYZ /dev/disk/by-id/wwn-0x5 "
           +:+ "/dev/disk/by-path/pci-0:1" +:+ nl, ""))
    no_owners.


(** ** Laws of computations *)

Section laws.

Context {A B : Type}.

Lemma result_bind (m : M A) (f : A -> M B) :
  result (m ≫= f) =
  match result m with Ok a => result (f a) | Raise e => Raise e end.
Proof.
  destruct m as [t [a|e]]; cbn; [destruct (f a)|]; reflexivity.
Qed.

Lemma trace_bind (m : M A) (f : A -> M B) :
  trace (m ≫= f) =
  trace m ++ match result m with Ok a => trace (f a) | Raise _ => [] end.
Proof.
  destruct m as [t [a|e]]; cbn; [destruct (f a); reflexivity|].
  now rewrite app_nil_r.
Qed.

Lemma result_try (m : M A) (h : exn -> M A) :
  result (try_except m h) =
  match result m with Ok a => Ok a | Raise e => result (h e) end.
Proof.
  destruct m as [t [a|e]]; cbn; [|destruct (h e)]; reflexivity.
Qed.

Lemma trace_try (m : M A) (h : exn -> M A) :
  trace (try_except m h) =
  trace m ++ match result m with Ok _ => [] | Raise e => trace (h e) end.
Proof.
  destruct m as [t [a|e]]; cbn; [now rewrite app_nil_r|].
  destruct (h e); reflexivity.
Qed.

End laws.

Lemma mret_bind {A B : Type} (a : A) (f : A -> M B) : mret a ≫= f = f a.
Proof. cbn. destruct (f a); reflexivity. Qed.

Lemma never_starts_app (prog : string) (t1 t2 : list Event) :
  never_starts prog (t1 ++ t2) = never_starts prog t1 && never_starts prog t2.
Proof. unfold never_starts. apply forallb_app. Qed.

(** ** The head of a sorted list *)

Lemma sorted_head (l : list string) (x : string) :
  In x l ->
  exists first rest,
    Py.sorted l = first :: rest /\ In first l /\
    forall a, In a l -> String.le first a.
Proof.
  intros Hx. unfold Py.sorted.
  pose proof (merge_sort_Permutation String.le l) as Hperm.
  pose proof (StronglySorted_merge_sort String.le l) as Hsort.
  destruct (merge_sort String.le l) as [|first rest].
  - apply Permutation_nil in Hperm. subst l. destruct Hx.
  - exists first, rest. split; [reflexivity|]. split.
    + apply (Permutation_in _ Hperm). now left.
    + intros a Ha. apply (Permutation_in _ (Permutation_sym Hperm)) in Ha.
      apply StronglySorted_inv in Hsort as [_ Hall].
      destruct Ha as [<-|Ha]; [reflexivity|].
      rewrite Forall_forall in Hall. apply Hall, list_elem_of_In, Ha.
Qed.

(** ** The device prober *)

(** The value of [fetch_idevs], read off the answers of the collaborators. *)
Lemma fetch_idevs_result (w : World) (mount_point : string) :
  result (fetch_idevs w mount_point) =
  match run_subp w (probe_cmd mount_point) None with
  | Ok out =>
      let disk := Py.strip out.1 in
      if negb (Py.truthy disk) || negb (path_exists w disk) then Ok ""
      else
        match List.filter (Py.str_in "disk/by-id") (aliases_of w disk) with
        | [] => Ok disk
        | (_ :: _) as by_id =>
            match Py.sorted by_id with
            | first :: _ => Ok first
            | [] => Raise (OtherException "IndexError")
            end
        end
  | Raise (ProcessExecutionError reason stderr) =>
      if benign_probe_failure reason stderr then Ok ""
      else Raise (ProcessExecutionError reason stderr)
  | Raise (OtherException _) => Ok ""
  end.
Proof.
  unfold fetch_idevs, aliases_of, subp, probe_cmd, symlink_cmd,
    benign_probe_failure.
  rewrite result_bind, result_try. cbn.
  destruct (run_subp w _ None) as [[out err]|[reason stderr|descr]]; cbn.
  - destruct (negb _ || negb _); [reflexivity|].
    rewrite result_bind, result_try. cbn.
    destruct (run_subp w _ None) as [[out2 err2]|e]; cbn; [|reflexivity].
    destruct (List.filter _ _) as [|a by_id]; [reflexivity|].
    destruct (Py.sorted _); reflexivity.
  - destruct (isinstance_FileNotFoundError reason); [reflexivity|]. cbn.
    destruct (Py.str_in _ stderr); reflexivity.
  - reflexivity.
Qed.

(** An unexpected failure of the probe leaves [fetch_idevs] at once: the
    only event is the probe itself, nothing is logged. *)
Lemma fetch_idevs_unexpected_failure (w : World) (mount_point : string)
    (reason : Reason) (stderr : string) :
  run_subp w (probe_cmd mount_point) None
    = Raise (ProcessExecutionError reason stderr) ->
  benign_probe_failure reason stderr = false ->
  fetch_idevs w mount_point =
    ([Subp (probe_cmd mount_point) None],
     Raise (ProcessExecutionError reason stderr)).
Proof.
  unfold benign_probe_failure, probe_cmd. intros Hprobe Hbenign.
  apply orb_false_elim in Hbenign as [Hfnf Hcanon].
  unfold fetch_idevs, subp. rewrite Hprobe. cbn.
  rewrite Hfnf, Hcanon. reflexivity.
Qed.

(** Among the by-id aliases the smallest is selected, and never anything
    else. *)
Lemma smallest_by_id (aliases : list string) (x : string) :
  In x aliases -> Py.str_in "disk/by-id" x = true ->
  exists first rest,
    Py.sorted (List.filter (Py.str_in "disk/by-id") aliases) = first :: rest
    /\ In first aliases /\ Py.str_in "disk/by-id" first = true
    /\ forall a, In a aliases -> Py.str_in "disk/by-id" a = true ->
                 String.le first a.
Proof.
  intros Hx Hid.
  destruct (sorted_head (List.filter (Py.str_in "disk/by-id") aliases) x)
    as (first & rest & Hsorted & Hin & Hmin).
  { apply filter_In. auto. }
  apply filter_In in Hin as [Hin Hfirst].
  exists first, rest. repeat split; auto.
  intros a Ha Haid. apply Hmin, filter_In. auto.
Qed.

(** C3. Once the probe has named an existing disk and the symlink query
    has answered: if some alias contains the by-id substring, [fetch_idevs]
    returns a by-id alias that is below every by-id alias in lexicographic
    order; if no alias contains it, [fetch_idevs] returns the probed disk
    path. *)
Theorem fetch_idevs_selects_smallest_by_id (w : World)
    (mount_point out err out2 err2 : string) :
  run_subp w (probe_cmd mount_point) None = Ok (out, err) ->
  Py.strip out <> "" ->
  path_exists w (Py.strip out) = true ->
  run_subp w (symlink_cmd (Py.strip out)) None = Ok (out2, err2) ->
  let aliases := Py.split (Py.strip out2) in
  ((exists a, In a aliases /\ Py.str_in "disk/by-id" a = true) ->
   exists r,
     result (fetch_idevs w mount_point) = Ok r
     /\ In r aliases /\ Py.str_in "disk/by-id" r = true
     /\ forall a, In a aliases -> Py.str_in "disk/by-id" a = true ->
                  String.le r a)
  /\ ((forall a, In a aliases -> Py.str_in "disk/by-id" a = false) ->
      result (fetch_idevs w mount_point) = Ok (Py.strip out)).
Proof.
  intros Hprobe Hdisk Hexists Hlinks aliases.
  assert (Haliases : aliases_of w (Py.strip out) = aliases).
  { unfold aliases_of. now rewrite Hlinks. }
  rewrite fetch_idevs_result, Hprobe. cbn.
  rewrite Hexists, Haliases.
  destruct (Py.strip out) as [|c disk] eqn:Ed; [congruence|]. cbn.
  split.
  - intros (x & Hx & Hid).
    destruct (smallest_by_id aliases x Hx Hid)
      as (first & rest & Hsorted & Hin & Hfirst & Hmin).
    exists first.
    destruct (List.filter _ aliases) as [|a by_id] eqn:Ef.
    + assert (Hxf : In x (List.filter (Py.str_in "disk/by-id") aliases))
        by (apply filter_In; auto).
      rewrite Ef in Hxf. destruct Hxf.
    + rewrite Hsorted. auto.
  - intros Hnone.
    destruct (List.filter _ aliases) as [|a by_id] eqn:Ef; [reflexivity|].
    assert (Ha : In a (List.filter (Py.str_in "disk/by-id") aliases))
      by (rewrite Ef; now left).
    apply filter_In in Ha as [Ha Haid]. rewrite (Hnone a Ha) in Haid.
    discriminate.
Qed.

Lemma fetch_idevs_selects_smallest_by_id_witness :
  exists r,
    result (fetch_idevs bios_sdb "/boot") = Ok r
    /\ Py.str_in "disk/by-id" r = true
    /\ String.le r "/dev/disk/by-id/wwn-0x5".
Proof.
  destruct (fetch_idevs_selects_smallest_by_id bios_sdb "/boot"
              ("/dev/sdb" +:+ nl) ""
              ("/dev/disk/by-path/pci-0:1 /dev/disk/by-id/wwn-0x5 "
                 +:+ "/dev/disk/by-id/ata-XYZ" +:+ nl) "")
    as [Hsome _].
  - reflexivity.
  - vm_compute. discriminate.
  - reflexivity.
  - reflexivity.
  - destruct Hsome as (r & Hr & _ & Hid & Hmin).
    + exists "/dev/disk/by-id/wwn-0x5". split; vm_compute; auto.
    + exists r. split; [exact Hr|]. split; [exact Hid|].
      apply Hmin; vm_compute; auto.
Defined.

(** C9. Whatever the collaborators answer, a value returned by
    [fetch_idevs] is the empty string, the probed disk path, or one of the
    queried aliases that contains "disk/by-id"; and when it returns no
    value it is because the probe failed in an unexpected way. *)
Theorem fetch_idevs_shapes (w : World) (mount_point : string) :
  match result (fetch_idevs w mount_point) with
  | Ok r =>
      r = ""
      \/ (exists out err,
            run_subp w (probe_cmd mount_point) None = Ok (out, err)
            /\ r = Py.strip out)
      \/ (exists out err out2 err2,
            run_subp w (probe_cmd mount_point) None = Ok (out, err)
            /\ run_subp w (symlink_cmd (Py.strip out)) None = Ok (out2, err2)
            /\ In r (Py.split (Py.strip out2))
            /\ Py.str_in "disk/by-id" r = true)
  | Raise e =>
      exists reason stderr,
        e = ProcessExecutionError reason stderr
        /\ run_subp w (probe_cmd mount_point) None = Raise e
        /\ benign_probe_failure reason stderr = false
  end.
Proof.
  rewrite fetch_idevs_result.
  destruct (run_subp w (probe_cmd mount_point) None)
    as [[out err]|[reason stderr|descr]] eqn:Hprobe; cbn.
  - destruct (negb _ || negb _); [now left|].
    destruct (List.filter _ _) as [|a by_id] eqn:Ef.
    { right; left. now exists out, err. }
    assert (Ha : In a (List.filter (Py.str_in "disk/by-id")
                         (aliases_of w (Py.strip out))))
      by (rewrite Ef; now left).
    apply filter_In in Ha as [Ha Haid].
    destruct (smallest_by_id _ a Ha Haid)
      as (first & rest & Hsorted & Hin & Hfirst & _).
    rewrite Ef in Hsorted. rewrite Hsorted.
    right; right. unfold aliases_of in Hin.
    destruct (run_subp w (symlink_cmd (Py.strip out)) None)
      as [[out2 err2]|e] eqn:Hlinks; [|destruct Hin].
    now exists out, err, out2, err2.
  - destruct (benign_probe_failure reason stderr) eqn:Hbenign; [now left|].
    now exists reason, stderr.
  - now left.
Qed.

(** ** The formatter *)

Lemma get_debconf_config_bios (w : World) (mycfg : gmap string pyval) :
  path_exists w "/sys/firmware/efi" = false ->
  result (get_debconf_config w mycfg) =
  match resolved_idevs w mycfg "grub-pc/install_devices" "/boot" with
  | Ok idevs =>
      Ok (Some (bios_directive idevs
                  (bool_lower
                     match default PyNone
                             (mycfg !! "grub-pc/install_devices_empty") with
                     | PyNone => negb (Py.truthy idevs)
                     | PyBool b => b
                     | PyStr s => util.translate_bool (PyStr s)
                     end)))
  | Raise e => Raise e
  end.
Proof.
  intros Hbios.
  unfold get_debconf_config, is_efi_booted, resolved_idevs,
    util.get_cfg_option_str.
  rewrite mret_bind, Hbios, result_bind.
  destruct (mycfg !! "grub-pc/install_devices") as [v|]; [reflexivity|].
  destruct (result (fetch_idevs w "/boot")); reflexivity.
Qed.

Lemma get_debconf_owner_bios (w : World) :
  path_exists w "/sys/firmware/efi" = false ->
  get_debconf_owner w = ([], Ok (Some "grub-pc")).
Proof.
  intros Hbios. unfold get_debconf_owner, is_efi_booted.
  rewrite mret_bind, Hbios. reflexivity.
Qed.

Lemma get_debconf_owner_efi (w : World) :
  path_exists w "/sys/firmware/efi" = true ->
  result (get_debconf_owner w) =
  match run_subp w owners_cmd None with
  | Ok out => Ok (scan_owners (Py.splitlines out.1))
  | Raise _ => Ok None
  end.
Proof.
  intros Hefi. unfold get_debconf_owner, is_efi_booted, owners_cmd, subp.
  rewrite mret_bind, Hefi. cbn.
  destruct (run_subp w _ None) as [[out err]|e]; reflexivity.
Qed.

Lemma get_debconf_config_efi (w : World) (mycfg : gmap string pyval) :
  path_exists w "/sys/firmware/efi" = true ->
  result (get_debconf_config w mycfg) =
  match result (get_debconf_owner w) with
  | Ok (Some owner) =>
      match resolved_idevs w mycfg "grub-efi/install_devices" "/boot/efi" with
      | Ok idevs => Ok (Some (efi_directive owner idevs))
      | Raise e => Raise e
      end
  | Ok None => Ok None
  | Raise e => Raise e
  end.
Proof.
  intros Hefi.
  unfold get_debconf_config, is_efi_booted at 1, resolved_idevs,
    util.get_cfg_option_str.
  rewrite mret_bind, Hefi, result_bind.
  destruct (result (get_debconf_owner w)) as [[owner|]|e];
    [|reflexivity|reflexivity].
  rewrite result_bind.
  destruct (mycfg !! "grub-efi/install_devices") as [v|]; [reflexivity|].
  destruct (result (fetch_idevs w "/boot/efi")); reflexivity.
Qed.

(** ** The entry point *)

Lemma handle_unfold (w : World) (name : string) (cfg : gmap string section) :
  handle w name cfg =
  if disabled (effective_cfg cfg) then
    log_debug "%s disabled by config grub_dpkg/enabled=%s"
      [LStr name;
       LVal (default (PyBool true) (effective_cfg cfg !! "enabled"))]
  else handle_enabled w name (effective_cfg cfg).
Proof.
  unfold handle, handle_enabled, disabled, effective_cfg.
  destruct (cfg !! "grub_dpkg") as [[|d]|];
    [| |destruct (cfg !! "grub-dpkg") as [[|d]|]]; cbn;
    try (rewrite lookup_empty; reflexivity);
    destruct (d !! "enabled"); reflexivity.
Qed.

(** ** Traces: which events a run may contain *)

Lemma never_starts_Forall (prog : string) (t : list Event) :
  never_starts prog t = true <-> Forall (fun ev => starts prog ev = false) t.
Proof.
  unfold never_starts. rewrite forallb_forall, Forall_forall.
  split; intros H ev Hev.
  - apply list_elem_of_In, H, negb_true_iff in Hev. exact Hev.
  - apply negb_true_iff, H, list_elem_of_In, Hev.
Qed.

Section traces.

Variable w : World.
Variable P : Event -> Prop.
Hypothesis P_log : forall lvl msg args, P (Log lvl msg args).

Ltac trace_cases :=
  cbn; repeat constructor; auto.

Lemma fetch_idevs_trace (mount_point : string) :
  P (Subp (probe_cmd mount_point) None) ->
  (forall disk, P (Subp (symlink_cmd disk) None)) ->
  Forall P (trace (fetch_idevs w mount_point)).
Proof.
  unfold probe_cmd, symlink_cmd. intros Hprobe Hlinks.
  unfold fetch_idevs, subp.
  destruct (run_subp w _ None) as [[out err]|[reason stderr|descr]];
    cbn.
  - destruct (negb _ || negb _); [trace_cases|].
    destruct (run_subp w _ None) as [[out2 err2]|e]; cbn.
    + destruct (List.filter _ _) as [|a by_id]; [trace_cases|].
      destruct (Py.sorted _); trace_cases.
    + trace_cases.
  - destruct (isinstance_FileNotFoundError reason); [trace_cases|].
    cbn. destruct (Py.str_in _ stderr); trace_cases.
  - trace_cases.
Qed.

Lemma get_debconf_owner_trace :
  P (Subp owners_cmd None) ->
  Forall P (trace (get_debconf_owner w)).
Proof.
  unfold owners_cmd. intros Howners.
  unfold get_debconf_owner, is_efi_booted, subp. rewrite mret_bind.
  destruct (path_exists w _); [|trace_cases]. cbn.
  destruct (run_subp w _ None) as [[out err]|e]; trace_cases.
Qed.

Lemma get_debconf_config_trace_bios (mycfg : gmap string pyval) :
  path_exists w "/sys/firmware/efi" = false ->
  P (Subp (probe_cmd "/boot") None) ->
  (forall disk, P (Subp (symlink_cmd disk) None)) ->
  Forall P (trace (get_debconf_config w mycfg)).
Proof.
  intros Hbios Hprobe Hlinks.
  unfold get_debconf_config, is_efi_booted.
  rewrite mret_bind, Hbios, trace_bind.
  rewrite Forall_app; split.
  - destruct (util.get_cfg_option_str _ _ _); [constructor|].
    now apply fetch_idevs_trace.
  - destruct (result _); constructor.
Qed.

Lemma get_debconf_config_trace (mycfg : gmap string pyval) :
  P (Subp owners_cmd None) ->
  (forall mount_point, P (Subp (probe_cmd mount_point) None)) ->
  (forall disk, P (Subp (symlink_cmd disk) None)) ->
  Forall P (trace (get_debconf_config w mycfg)).
Proof.
  intros Howners Hprobe Hlinks.
  destruct (path_exists w "/sys/firmware/efi") eqn:Hefi;
    [|now apply get_debconf_config_trace_bios].
  unfold get_debconf_config, is_efi_booted at 1.
  rewrite mret_bind, Hefi, trace_bind.
  rewrite Forall_app; split; [now apply get_debconf_owner_trace|].
  destruct (result (get_debconf_owner w)) as [[owner|]|e];
    try constructor.
  rewrite trace_bind. rewrite Forall_app; split.
  - destruct (util.get_cfg_option_str _ _ _); [constructor|].
    now apply fetch_idevs_trace.
  - destruct (result _); constructor.
Qed.

End traces.

(** The events of [handle_enabled]: those of the formatter, then either
    the setter with what it is given, or one log record. *)
Lemma handle_enabled_trace (w : World) (name : string)
    (mycfg : gmap string pyval) :
  exists rest,
    trace (handle_enabled w name mycfg)
      = trace (get_debconf_config w mycfg) ++ rest
    /\ match result (get_debconf_config w mycfg) with
       | Ok (Some dconf_sel) =>
           exists msg logs,
             rest = Log DEBUG msg []
                      :: Subp ["debconf-set-selections"] (Some dconf_sel)
                      :: logs
             /\ Forall (fun ev => is_log ev = true) logs
       | Ok None => rest = [Log DEBUG "%s no debconf config returned"
                              [LStr name]]
       | Raise _ => rest = []
       end.
Proof.
  unfold handle_enabled. rewrite trace_bind.
  eexists. split; [reflexivity|].
  destruct (result (get_debconf_config w mycfg)) as [[dconf_sel|]|e];
    [|reflexivity|reflexivity].
  unfold subp. cbn.
  destruct (run_subp w _ _) as [out|e]; cbn;
    eexists _, _; (split; [reflexivity|]); repeat constructor.
Qed.

Lemma handle_enabled_result (w : World) (name : string)
    (mycfg : gmap string pyval) :
  result (handle_enabled w name mycfg) =
  match result (get_debconf_config w mycfg) with
  | Ok _ => Ok tt
  | Raise e => Raise e
  end.
Proof.
  unfold handle_enabled. rewrite result_bind.
  destruct (result (get_debconf_config w mycfg)) as [[dconf_sel|]|e];
    [|reflexivity|reflexivity].
  unfold subp. cbn. destruct (run_subp w _ _); reflexivity.
Qed.

(** ** The owner resolver *)

Lemma str_in_list_In (x : string) (l : list string) :
  Py.str_in_list x l = true <-> In x l.
Proof.
  unfold Py.str_in_list. rewrite existsb_exists. split.
  - intros (y & Hy & Heq). apply String.eqb_eq in Heq. now subst.
  - intros Hx. exists x. split; [exact Hx|apply String.eqb_refl].
Qed.

Lemma scan_owners_spec (lines : list string) :
  match scan_owners lines with
  | Some owner =>
      exists pre line post,
        lines = pre ++ line :: post
        /\ owner = Py.strip line
        /\ In owner valid_efi_owners
        /\ forall l, In l pre -> ~ In (Py.strip l) valid_efi_owners
  | None => forall l, In l lines -> ~ In (Py.strip l) valid_efi_owners
  end.
Proof.
  induction lines as [|line rest IH]; cbn -[valid_efi_owners].
  - intros l [].
  - destruct (Py.str_in_list (Py.strip line) valid_efi_owners) eqn:Hline.
    + exists [], line, rest. apply str_in_list_In in Hline.
      repeat split; auto.
    + assert (Hnot : ~ In (Py.strip line) valid_efi_owners).
      { intros Hin. apply str_in_list_In in Hin. congruence. }
      destruct (scan_owners rest) as [owner|].
      * destruct IH as (pre & l0 & post & -> & -> & Hin & Hpre).
        exists (line :: pre), l0, post. repeat split; auto.
        intros l [<-|Hl]; auto.
      * intros l [<-|Hl]; auto.
Qed.

(** ** Properties of the module *)

(** C1. On a BIOS machine with the module enabled and no configured
    [grub-pc/install_devices], a failure of the probe that is neither
    "executable not found" nor a canonicalization failure is not caught
    anywhere: [handle] ends with that very exception, after the single
    event of starting the probe, with nothing logged and no directive
    set. *)
Theorem unexpected_probe_failure_leaves_handle (w : World) (name : string)
    (cfg : gmap string section) (reason : Reason) (stderr : string) :
  path_exists w "/sys/firmware/efi" = false ->
  disabled (effective_cfg cfg) = false ->
  effective_cfg cfg !! "grub-pc/install_devices" = None ->
  run_subp w (probe_cmd "/boot") None
    = Raise (ProcessExecutionError reason stderr) ->
  benign_probe_failure reason stderr = false ->
  handle w name cfg =
    ([Subp (probe_cmd "/boot") None],
     Raise (ProcessExecutionError reason stderr)).
Proof.
  intros Hbios Henabled Hkey Hprobe Hbenign.
  rewrite handle_unfold, Henabled.
  unfold handle_enabled, get_debconf_config, is_efi_booted,
    util.get_cfg_option_str.
  rewrite mret_bind, Hbios, Hkey.
  rewrite (fetch_idevs_unexpected_failure w "/boot" reason stderr Hprobe
             Hbenign).
  reflexivity.
Qed.

Lemma unexpected_probe_failure_leaves_handle_witness :
  handle bios_probe_broken "cc_grub_dpkg" ∅ =
    ([Subp ["grub-probe"; "-t"; "disk"; "/boot"] None],
     Raise (ProcessExecutionError
              (OtherReason "Unexpected error while running command.")
              "grub-probe: error: unknown filesystem.")).
Proof.
  apply (unexpected_probe_failure_leaves_handle bios_probe_broken
           "cc_grub_dpkg" ∅); reflexivity.
Defined.

(** C2. In the BIOS branch, when [grub-pc/install_devices_empty] is absent
    from the configuration, the boolean of the directive is "true" exactly
    when the resolved device identifier is the empty string, and "false"
    otherwise; a configured empty [grub-pc/install_devices] gives "true". *)
Theorem bios_install_devices_empty_default (w : World)
    (mycfg : gmap string pyval) :
  path_exists w "/sys/firmware/efi" = false ->
  mycfg !! "grub-pc/install_devices_empty" = None ->
  result (get_debconf_config w mycfg) =
    match resolved_idevs w mycfg "grub-pc/install_devices" "/boot" with
    | Ok idevs =>
        Ok (Some (bios_directive idevs
                    (if String.eqb idevs "" then "true" else "false")))
    | Raise e => Raise e
    end
  /\ (mycfg !! "grub-pc/install_devices" = Some (PyStr "") ->
      result (get_debconf_config w mycfg)
        = Ok (Some (bios_directive "" "true"))).
Proof.
  intros Hbios Hkey.
  assert (Hres : result (get_debconf_config w mycfg) =
    match resolved_idevs w mycfg "grub-pc/install_devices" "/boot" with
    | Ok idevs =>
        Ok (Some (bios_directive idevs
                    (if String.eqb idevs "" then "true" else "false")))
    | Raise e => Raise e
    end).
  { rewrite (get_debconf_config_bios w mycfg Hbios), Hkey.
    destruct (resolved_idevs _ _ _ _) as [[|c idevs]|e]; reflexivity. }
  split; [exact Hres|].
  intros Hidevs. rewrite Hres. unfold resolved_idevs. rewrite Hidevs.
  reflexivity.
Qed.

Lemma bios_install_devices_empty_default_witness :
  result (get_debconf_config bios_sdb
            {[ "grub-pc/install_devices" := PyStr "" ]})
    = Ok (Some (bios_directive "" "true")).
Proof.
  apply (bios_install_devices_empty_default bios_sdb
           {[ "grub-pc/install_devices" := PyStr "" ]});
    reflexivity.
Defined.

(** C5. In BIOS boot mode the directive is the line
    "grub-pc grub-pc/install_devices string <idevs>" followed by the line
    "grub-pc grub-pc/install_devices_empty boolean <true|false>", each
    ended by a newline, for the resolved identifier; with
    [grub-pc/install_devices] configured as /dev/sda (and no
    [grub-pc/install_devices_empty]) it is the text given. *)
Theorem bios_directive_two_lines (w : World) (mycfg : gmap string pyval) :
  path_exists w "/sys/firmware/efi" = false ->
  match resolved_idevs w mycfg "grub-pc/install_devices" "/boot" with
  | Ok idevs =>
      exists b : bool,
        result (get_debconf_config w mycfg) =
          Ok (Some ("grub-pc grub-pc/install_devices string "
                      +:+ idevs +:+ nl
                      +:+ "grub-pc grub-pc/install_devices_empty boolean "
                      +:+ (if b then "true" else "false") +:+ nl))
  | Raise e => result (get_debconf_config w mycfg) = Raise e
  end
  /\ (mycfg !! "grub-pc/install_devices" = Some (PyStr "/dev/sda") ->
      mycfg !! "grub-pc/install_devices_empty" = None ->
      result (get_debconf_config w mycfg) =
        Ok (Some "grub-pc grub-pc/install_devices string /dev/sda
grub-pc grub-pc/install_devices_empty boolean false
")).
Proof.
  intros Hbios. rewrite (get_debconf_config_bios w mycfg Hbios). split.
  - destruct (resolved_idevs _ _ _ _) as [idevs|e]; [|reflexivity].
    match goal with |- context [bool_lower ?x] => exists x; destruct x end;
      reflexivity.
  - intros Hidevs Hempty. unfold resolved_idevs.
    rewrite Hidevs, Hempty. reflexivity.
Qed.

Lemma bios_directive_two_lines_witness :
  result (get_debconf_config bios_sdb
            {[ "grub-pc/install_devices" := PyStr "/dev/sda" ]}) =
    Ok (Some "grub-pc grub-pc/install_devices string /dev/sda
grub-pc grub-pc/install_devices_empty boolean false
").
Proof.
  apply (bios_directive_two_lines bios_sdb
           {[ "grub-pc/install_devices" := PyStr "/dev/sda" ]});
    reflexivity.
Defined.

(** C7. In the BIOS branch, when [grub-pc/install_devices_empty] is set to
    one of the strings "yes", "true", "1", the boolean of the directive is
    "true", whatever identifier was resolved and whatever the prober
    returned. *)
Theorem bios_install_devices_empty_truthy (w : World)
    (mycfg : gmap string pyval) (s : string) :
  path_exists w "/sys/firmware/efi" = false ->
  mycfg !! "grub-pc/install_devices_empty" = Some (PyStr s) ->
  In s ["yes"; "true"; "1"] ->
  result (get_debconf_config w mycfg) =
    match resolved_idevs w mycfg "grub-pc/install_devices" "/boot" with
    | Ok idevs => Ok (Some (bios_directive idevs "true"))
    | Raise e => Raise e
    end.
Proof.
  intros Hbios Hkey Hs.
  rewrite (get_debconf_config_bios w mycfg Hbios), Hkey.
  destruct (resolved_idevs _ _ _ _) as [idevs|e]; [|reflexivity].
  destruct Hs as [<-|[<-|[<-|[]]]]; reflexivity.
Qed.

Lemma bios_install_devices_empty_truthy_witness :
  result (get_debconf_config bios_sdb
            {[ "grub-pc/install_devices_empty" := PyStr "yes" ]})
    = Ok (Some (bios_directive "/dev/disk/by-id/ata-XYZ" "true")).
Proof.
  rewrite (bios_install_devices_empty_truthy bios_sdb
             {[ "grub-pc/install_devices_empty" := PyStr "yes" ]} "yes").
  - reflexivity.
  - reflexivity.
  - reflexivity.
  - now left.
Defined.

(** C6. In EFI boot mode with a resolved owner, the identifier is the
    value configured under [grub-efi/install_devices] when that key is
    present and the prober's result for /boot/efi otherwise, and the
    directive is the one line
    "<owner> grub-efi/install_devices string <idevs>" ended by a newline. *)
Theorem efi_directive_one_line (w : World) (mycfg : gmap string pyval)
    (owner : string) :
  path_exists w "/sys/firmware/efi" = true ->
  result (get_debconf_owner w) = Ok (Some owner) ->
  (forall v, mycfg !! "grub-efi/install_devices" = Some v ->
     result (get_debconf_config w mycfg) =
       Ok (Some (owner +:+ " grub-efi/install_devices string "
                   +:+ py_str v +:+ nl)))
  /\ (mycfg !! "grub-efi/install_devices" = None ->
      result (get_debconf_config w mycfg) =
        match result (fetch_idevs w "/boot/efi") with
        | Ok idevs =>
            Ok (Some (owner +:+ " grub-efi/install_devices string "
                        +:+ idevs +:+ nl))
        | Raise e => Raise e
        end).
Proof.
  intros Hefi Howner.
  rewrite (get_debconf_config_efi w mycfg Hefi), Howner.
  unfold resolved_idevs. split.
  - intros v Hv. rewrite Hv. reflexivity.
  - intros Hnone. rewrite Hnone.
    destruct (result (fetch_idevs w "/boot/efi")); reflexivity.
Qed.

Lemma efi_directive_one_line_witness :
  result (get_debconf_config efi_amd64
            {[ "grub-efi/install_devices" := PyStr "/dev/sda" ]}) =
    Ok (Some "grub-efi-amd64 grub-efi/install_devices string /dev/sda
").
Proof.
  destruct (efi_directive_one_line efi_amd64
              {[ "grub-efi/install_devices" := PyStr "/dev/sda" ]}
              "grub-efi-amd64") as [Hpresent _].
  - reflexivity.
  - reflexivity.
  - apply (Hpresent (PyStr "/dev/sda")). reflexivity.
Defined.

(** C4. In EFI boot mode the owner resolver returns the trimmed text of
    the first line of the owner listing, in the order of the output, that
    is one of grub-efi-amd64, grub-efi-arm64, grub-efi-ia32; it returns
    none when no line is one of them or when the listing fails; and when
    it returns none, the formatter yields no directive and [handle] ends
    normally without ever starting the setter. *)
Theorem efi_owner_first_valid_line (w : World) :
  path_exists w "/sys/firmware/efi" = true ->
  (forall out err,
     run_subp w owners_cmd None = Ok (out, err) ->
     exists r,
       result (get_debconf_owner w) = Ok r
       /\ match r with
          | Some owner =>
              exists pre line post,
                Py.splitlines out = pre ++ line :: post
                /\ owner = Py.strip line
                /\ In owner ["grub-efi-amd64"; "grub-efi-arm64";
                             "grub-efi-ia32"]
                /\ forall l, In l pre ->
                     ~ In (Py.strip l) ["grub-efi-amd64"; "grub-efi-arm64";
                                        "grub-efi-ia32"]
          | None =>
              forall l, In l (Py.splitlines out) ->
                ~ In (Py.strip l) ["grub-efi-amd64"; "grub-efi-arm64";
                                   "grub-efi-ia32"]
          end)
  /\ (forall e,
        run_subp w owners_cmd None = Raise e ->
        result (get_debconf_owner w) = Ok None)
  /\ (result (get_debconf_owner w) = Ok None ->
      forall name cfg,
        result (get_debconf_config w (effective_cfg cfg)) = Ok None
        /\ never_starts "debconf-set-selections" (trace (handle w name cfg))
           = true
        /\ result (handle w name cfg) = Ok tt).
Proof.
  intros Hefi. rewrite (get_debconf_owner_efi w Hefi).
  split; [|split].
  - intros out err Hout. rewrite Hout. cbn.
    exists (scan_owners (Py.splitlines out)). split; [reflexivity|].
    apply scan_owners_spec.
  - intros e He. rewrite He. reflexivity.
  - intros Hnone name cfg.
    assert (Hcfg : forall mycfg, result (get_debconf_config w mycfg) = Ok None).
    { intros mycfg.
      rewrite (get_debconf_config_efi w mycfg Hefi),
        (get_debconf_owner_efi w Hefi), Hnone. reflexivity. }
    split; [apply Hcfg|].
    rewrite handle_unfold.
    destruct (disabled (effective_cfg cfg)); [split; reflexivity|].
    rewrite handle_enabled_result, Hcfg. split; [|reflexivity].
    destruct (handle_enabled_trace w name (effective_cfg cfg))
      as (rest & -> & Hrest).
    rewrite Hcfg in Hrest. subst rest.
    rewrite never_starts_app, andb_true_iff. split; [|reflexivity].
    apply never_starts_Forall, get_debconf_config_trace; reflexivity.
Qed.

Lemma efi_owner_first_valid_line_witness :
  (exists r,
     result (get_debconf_owner efi_ia32_first) = Ok r
     /\ r <> Some "grub-efi-amd64")
  /\ never_starts "debconf-set-selections"
       (trace (handle efi_no_owner "cc_grub_dpkg" ∅)) = true.
Proof.
  split.
  - destruct (efi_owner_first_valid_line efi_ia32_first) as [Hfirst _].
    + reflexivity.
    + destruct (Hfirst ("shim-signed" +:+ nl +:+ "  grub-efi-ia32 " +:+ nl
                          +:+ "grub-efi-amd64" +:+ nl) "" eq_refl)
        as (r & Hr & _).
      exists r. split; [exact Hr|].
      intros ->. vm_compute in Hr. discriminate.
  - destruct (efi_owner_first_valid_line efi_no_owner) as (_ & _ & Hnone).
    + reflexivity.
    + apply (Hnone eq_refl "cc_grub_dpkg" ∅).
Defined.

(** C8. The module is enabled by default.  With the configuration read
    from [grub_dpkg], or from its alias [grub-dpkg] when [grub_dpkg] is
    absent: when it has no [enabled] field, or one that does not evaluate
    false, [handle] goes on to the formatter and hands its directive to
    the setter; when the field evaluates false, [handle] logs one record
    and returns, starting no command at all. *)
Theorem handle_enabled_by_default (w : World) (name : string)
    (cfg : gmap string section) :
  match effective_cfg cfg !! "enabled" with
  | None => proceeds w (effective_cfg cfg) (handle w name cfg)
  | Some v =>
      if util.is_false v then
        handle w name cfg =
          ([Log DEBUG "%s disabled by config grub_dpkg/enabled=%s"
              [LStr name; LVal v]], Ok tt)
      else proceeds w (effective_cfg cfg) (handle w name cfg)
  end.
Proof.
  assert (Hgo : disabled (effective_cfg cfg) = false ->
                proceeds w (effective_cfg cfg) (handle w name cfg)).
  { intros Henabled. rewrite handle_unfold, Henabled.
    destruct (handle_enabled_trace w name (effective_cfg cfg))
      as (rest & Htrace & Hrest).
    exists rest. split; [exact Htrace|].
    intros dconf_sel Hsel. rewrite Hsel in Hrest.
    destruct Hrest as (msg & logs & -> & _). right. now left. }
  pose proof (handle_unfold w name cfg) as Hunfold.
  unfold disabled in *.
  destruct (effective_cfg cfg !! "enabled") as [v|]; [|now apply Hgo].
  destruct (util.is_false v); [exact Hunfold|now apply Hgo].
Qed.

(** C10. When the system is not EFI-booted, [get_debconf_owner] returns
    "grub-pc" and starts no command, and no run of [handle] ever starts
    the owner listing. *)
Theorem bios_owner_without_query (w : World) :
  path_exists w "/sys/firmware/efi" = false ->
  get_debconf_owner w = ([], Ok (Some "grub-pc"))
  /\ forall name cfg,
       never_starts "debconf-show" (trace (handle w name cfg)) = true.
Proof.
  intros Hbios. split; [now apply get_debconf_owner_bios|].
  intros name cfg. rewrite handle_unfold.
  destruct (disabled (effective_cfg cfg)); [reflexivity|].
  destruct (handle_enabled_trace w name (effective_cfg cfg))
    as (rest & -> & Hrest).
  rewrite never_starts_app, andb_true_iff. split.
  - apply never_starts_Forall, get_debconf_config_trace_bios;
      auto; reflexivity.
  - destruct (result (get_debconf_config w (effective_cfg cfg)))
      as [[dconf_sel|]|e]; subst; try reflexivity.
    destruct Hrest as (msg & logs & -> & Hlogs). cbn.
    apply never_starts_Forall.
    eapply Forall_impl; [exact Hlogs|].
    intros [args data|lvl m args]; cbn; [discriminate|reflexivity].
Qed.

Lemma bios_owner_without_query_witness :
  get_debconf_owner bios_sdb = ([], Ok (Some "grub-pc"))
  /\ never_starts "debconf-show"
       (trace (handle bios_sdb "cc_grub_dpkg" ∅)) = true.
Proof.
  destruct (bios_owner_without_query bios_sdb) as [Howner Hnever].
  - reflexivity.
  - split; [exact Howner|apply Hnever].
Defined.

(** ** Further properties of the device prober *)

Lemma commands_app (t1 t2 : list Event) :
  commands (t1 ++ t2) = commands t1 ++ commands t2.
Proof.
  induction t1 as [|[args data|lvl msg args] t1 IH]; cbn;
    [reflexivity|f_equal|]; exact IH.
Qed.

Lemma by_id_nonempty (a : string) :
  Py.str_in "disk/by-id" a = true -> a <> "".
Proof. intros Ha ->. discriminate. Qed.


(** X1. Whatever the collaborators answer, [fetch_idevs] starts the probe
    first and exactly once, then the symlink query, once, exactly when the
    probe named a non-empty path that exists, and no other command. *)
Theorem fetch_idevs_commands (w : World) (mount_point : string) :
  commands (trace (fetch_idevs w mount_point)) =
  (probe_cmd mount_point, None)
  :: match run_subp w (probe_cmd mount_point) None with
     | Ok out =>
         if Py.truthy (Py.strip out.1) && path_exists w (Py.strip out.1)
         then [(symlink_cmd (Py.strip out.1), None)]
         else []
     | Raise _ => []
     end.
Proof.
  unfold fetch_idevs, subp, probe_cmd, symlink_cmd.
  destruct (run_subp w _ None) as [[out err]|[reason stderr|descr]]; cbn.
  - destruct (Py.truthy (Py.strip out)), (path_exists w (Py.strip out));
      cbn; try reflexivity.
    destruct (run_subp w _ None) as [[out2 err2]|e]; cbn.
    + destruct (List.filter _ _) as [|a by_id]; [reflexivity|].
      destruct (Py.sorted _); reflexivity.
    + reflexivity.
  - destruct (isinstance_FileNotFoundError reason); [reflexivity|]. cbn.
    destruct (Py.str_in _ stderr); reflexivity.
  - reflexivity.
Qed.

(** X2. [fetch_idevs] returns a non-empty identifier exactly when the
    probe succeeded with a non-empty path that exists on the file system;
    in particular a failing or empty symlink query never empties it. *)
Theorem fetch_idevs_nonempty_iff (w : World) (mount_point : string) :
  (exists r, result (fetch_idevs w mount_point) = Ok r /\ r <> "")
  <-> (exists out err,
         run_subp w (probe_cmd mount_point) None = Ok (out, err)
         /\ Py.strip out <> ""
         /\ path_exists w (Py.strip out) = true).
Proof.
  rewrite fetch_idevs_result.
  destruct (run_subp w (probe_cmd mount_point) None)
    as [[out err]|[reason stderr|descr]]; cbn.
  - destruct (Py.strip out) as [|c disk] eqn:Ed; cbn.
    { split.
      - intros (r & [= <-] & Hr). congruence.
      - intros (out' & err' & [= <- <-] & Hne & _). congruence. }
    destruct (path_exists w (String c disk)) eqn:Hexists; cbn.
    + split.
      * intros _. exists out, err. rewrite Ed. repeat split; congruence.
      * intros _.
        destruct (List.filter _ _) as [|a by_id] eqn:Ef.
        { eexists. split; [reflexivity|discriminate]. }
        assert (Ha : In a (List.filter (Py.str_in "disk/by-id")
                             (aliases_of w (String c disk))))
          by (rewrite Ef; now left).
        apply filter_In in Ha as [Ha Haid].
        destruct (smallest_by_id _ a Ha Haid)
          as (first & rest & Hsorted & _ & Hfirst & _).
        rewrite Ef in Hsorted. rewrite Hsorted.
        exists first. split; [reflexivity|now apply by_id_nonempty].
    + split.
      * intros (r & [= <-] & Hr). congruence.
      * intros (out' & err' & [= <- <-] & _ & Hex).
        rewrite Ed in Hex. congruence.
  - split.
    + destruct (benign_probe_failure reason stderr);
        intros (r & Hr & Hne); [injection Hr as <-|]; congruence.
    + intros (out & err & Hprobe & _). discriminate.
  - split.
    + intros (r & [= <-] & Hr). congruence.
    + intros (out & err & Hprobe & _). discriminate.
Qed.





(** The choice among the aliases depends on which aliases there are, not
    on the order or the number of times they are listed. *)
Lemma selection_same_elements (disk : string) (l1 l2 : list string) :
  (forall a, In a l1 <-> In a l2) ->
  match List.filter (Py.str_in "disk/by-id") l1 with
  | [] => Ok disk
  | (_ :: _) as by_id =>
      match Py.sorted by_id with
      | first :: _ => Ok first
      | [] => Raise (OtherException "IndexError")
      end
  end =
  match List.filter (Py.str_in "disk/by-id") l2 with
  | [] => Ok disk
  | (_ :: _) as by_id =>
      match Py.sorted by_id with
      | first :: _ => Ok first
      | [] => Raise (OtherException "IndexError")
      end
  end.
Proof.
  intros Hsame.
  assert (Hf : forall a, In a (List.filter (Py.str_in "disk/by-id") l1)
                         <-> In a (List.filter (Py.str_in "disk/by-id") l2)).
  { intros a. rewrite !filter_In, Hsame. reflexivity. }
  destruct (List.filter _ l1) as [|a1 f1] eqn:E1;
    destruct (List.filter _ l2) as [|a2 f2] eqn:E2.
  - reflexivity.
  - destruct (proj2 (Hf a2)). now left.
  - destruct (proj1 (Hf a1)). now left.
  - destruct (sorted_head (a1 :: f1) a1) as (m1 & r1 & -> & Hin1 & Hmin1);
      [now left|].
    destruct (sorted_head (a2 :: f2) a2) as (m2 & r2 & -> & Hin2 & Hmin2);
      [now left|].
    f_equal. apply (anti_symm String.le).
    + apply Hmin1, Hf, Hin2.
    + apply Hmin2, Hf, Hin1.
Qed.

(** X5. The identifier selected does not depend on the order in which the
    symlink query lists the aliases, nor on repetitions: two systems that
    agree on the probe and whose symlink queries list the same aliases
    make [fetch_idevs] return the same value. *)
Theorem selection_ignores_alias_order (w1 w2 : World)
    (mount_point out err out1 err1 out2 err2 : string) :
  run_subp w1 (probe_cmd mount_point) None = Ok (out, err) ->
  run_subp w2 (probe_cmd mount_point) None = Ok (out, err) ->
  path_exists w1 (Py.strip out) = path_exists w2 (Py.strip out) ->
  run_subp w1 (symlink_cmd (Py.strip out)) None = Ok (out1, err1) ->
  run_subp w2 (symlink_cmd (Py.strip out)) None = Ok (out2, err2) ->
  (forall a, In a (Py.split (Py.strip out1))
             <-> In a (Py.split (Py.strip out2))) ->
  result (fetch_idevs w1 mount_point) = result (fetch_idevs w2 mount_point).
Proof.
  intros Hp1 Hp2 Hexists Hl1 Hl2 Hsame.
  rewrite !fetch_idevs_result, Hp1, Hp2. cbn. rewrite Hexists.
  destruct (negb _ || negb _); [reflexivity|].
  unfold aliases_of. rewrite Hl1, Hl2. cbn.
  now apply selection_same_elements.
Qed.

Lemma selection_ignores_alias_order_witness :
  result (fetch_idevs bios_sdb "/boot")
    = result (fetch_idevs bios_sdb_reordered "/boot").
Proof.
  apply (selection_ignores_alias_order bios_sdb bios_sdb_reordered "/boot"
           ("/dev/sdb" +:+ nl) ""
           ("/dev/disk/by-path/pci-0:1 /dev/disk/by-id/wwn-0x5 "
              +:+ "/dev/disk/by-id/ata-XYZ" +:+ nl) ""
           ("/dev/disk/by-id/ata-XYZ /dev/disk/by-id/wwn-0x5 "
              +:+ "/dev/disk/by-path/pci-0:1" +:+ nl) "").
  - reflexivity.
  - reflexivity.
  - reflexivity.
  - reflexivity.
  - reflexivity.
  - intros a.
    change (Py.split (Py.strip _)) with
      ["/dev/disk/by-path/pci-0:1"; "/dev/disk/by-id/wwn-0x5";
       "/dev/disk/by-id/ata-XYZ"] at 1.
    change (Py.split (Py.strip _)) with
      ["/dev/disk/by-id/ata-XYZ"; "/dev/disk/by-id/wwn-0x5";
       "/dev/disk/by-path/pci-0:1"].
    cbn [In]. tauto.
Defined.

(** ** Further properties of the owner resolver and of the formatter *)

Lemma get_debconf_owner_commands (w : World) :
  commands (trace (get_debconf_owner w)) =
  if path_exists w "/sys/firmware/efi" then [(owners_cmd, None)] else [].
Proof.
  unfold get_debconf_owner, is_efi_booted, subp, owners_cmd.
  rewrite mret_bind.
  destruct (path_exists w _); [|reflexivity]. cbn.
  destruct (run_subp w _ None) as [[out err]|e]; reflexivity.
Qed.

Lemma scan_owners_valid (lines : list string) (owner : string) :
  scan_owners lines = Some owner -> In owner valid_efi_owners.
Proof.
  intros Hscan. pose proof (scan_owners_spec lines) as Hspec.
  rewrite Hscan in Hspec. destruct Hspec as (_ & _ & _ & _ & _ & Hin & _).
  exact Hin.
Qed.

(** X6. [get_debconf_owner] never raises.  On a BIOS machine it answers
    "grub-pc"; on an EFI machine it answers one of the three EFI packages
    or nothing, and never "grub-pc", whatever the owner listing prints. *)
Theorem get_debconf_owner_answers (w : World) :
  exists r,
    result (get_debconf_owner w) = Ok r
    /\ if path_exists w "/sys/firmware/efi"
       then match r with
            | Some owner =>
                In owner ["grub-efi-amd64"; "grub-efi-arm64"; "grub-efi-ia32"]
                /\ owner <> "grub-pc"
            | None => True
            end
       else r = Some "grub-pc".
Proof.
  destruct (path_exists w "/sys/firmware/efi") eqn:Hefi.
  - rewrite (get_debconf_owner_efi w Hefi).
    destruct (run_subp w owners_cmd None) as [[out err]|e].
    + eexists. split; [reflexivity|]. cbn.
      destruct (scan_owners (Py.splitlines out)) as [owner|] eqn:Hscan;
        [|exact I].
      apply scan_owners_valid in Hscan. split; [exact Hscan|].
      intros ->. cbn in Hscan. intuition discriminate.
    + exists None. split; [reflexivity|exact I].
  - rewrite (get_debconf_owner_bios w Hefi). eexists. split; reflexivity.
Qed.

(** X7. The commands of the formatter.  On an EFI machine it starts the
    owner listing first, and then, only with an owner and without a
    configured [grub-efi/install_devices], the prober for /boot/efi.  On a
    BIOS machine it starts nothing when [grub-pc/install_devices] is
    configured, and the prober for /boot otherwise. *)
Theorem get_debconf_config_commands (w : World) (mycfg : gmap string pyval) :
  commands (trace (get_debconf_config w mycfg)) =
  if path_exists w "/sys/firmware/efi" then
    (owners_cmd, None)
    :: match result (get_debconf_owner w) with
       | Ok (Some _) =>
           match mycfg !! "grub-efi/install_devices" with
           | Some _ => []
           | None => commands (trace (fetch_idevs w "/boot/efi"))
           end
       | _ => []
       end
  else
    match mycfg !! "grub-pc/install_devices" with
    | Some _ => []
    | None => commands (trace (fetch_idevs w "/boot"))
    end.
Proof.
  unfold get_debconf_config, is_efi_booted at 1, util.get_cfg_option_str.
  rewrite mret_bind.
  destruct (path_exists w "/sys/firmware/efi") eqn:Hefi.
  - rewrite trace_bind, commands_app, get_debconf_owner_commands, Hefi.
    cbn [app]. f_equal.
    destruct (result (get_debconf_owner w)) as [[owner|]|e];
      [|reflexivity|reflexivity].
    rewrite trace_bind, commands_app.
    destruct (mycfg !! "grub-efi/install_devices") as [v|]; [reflexivity|].
    destruct (result (fetch_idevs w "/boot/efi")); cbn;
      now rewrite app_nil_r.
  - rewrite trace_bind, commands_app.
    destruct (mycfg !! "grub-pc/install_devices") as [v|]; [reflexivity|].
    destruct (result (fetch_idevs w "/boot")); cbn; now rewrite app_nil_r.
Qed.

(** X8. A native boolean under [grub-pc/install_devices_empty] is rendered
    as it is, with no regard to the identifier: an explicit [False] gives
    "false" even when the identifier is empty. *)
Theorem bios_native_boolean_kept (w : World) (mycfg : gmap string pyval)
    (b : bool) :
  path_exists w "/sys/firmware/efi" = false ->
  mycfg !! "grub-pc/install_devices_empty" = Some (PyBool b) ->
  result (get_debconf_config w mycfg) =
    match resolved_idevs w mycfg "grub-pc/install_devices" "/boot" with
    | Ok idevs =>
        Ok (Some (bios_directive idevs (if b then "true" else "false")))
    | Raise e => Raise e
    end.
Proof.
  intros Hbios Hkey.
  rewrite (get_debconf_config_bios w mycfg Hbios), Hkey.
  destruct (resolved_idevs _ _ _ _) as [idevs|e]; [|reflexivity].
  destruct b; reflexivity.
Qed.

Lemma bios_native_boolean_kept_witness :
  result (get_debconf_config bios_container
            {[ "grub-pc/install_devices_empty" := PyBool false ]})
    = Ok (Some (bios_directive "" "false")).
Proof.
  rewrite (bios_native_boolean_kept bios_container
             {[ "grub-pc/install_devices_empty" := PyBool false ]} false);
    reflexivity.
Defined.

(** X9. A [grub-pc/install_devices_empty] key written without a value
    ([None]) is the same as no key: the formatter does exactly what it
    does on the configuration with the key removed. *)
Theorem null_install_devices_empty_is_absent (w : World)
    (mycfg : gmap string pyval) :
  mycfg !! "grub-pc/install_devices_empty" = Some PyNone ->
  get_debconf_config w mycfg
    = get_debconf_config w (delete "grub-pc/install_devices_empty" mycfg).
Proof.
  intros Hnull. unfold get_debconf_config, util.get_cfg_option_str.
  rewrite Hnull, lookup_delete_eq.
  rewrite !lookup_delete_ne by discriminate. reflexivity.
Qed.

Lemma null_install_devices_empty_is_absent_witness :
  get_debconf_config bios_sdb
    {[ "grub-pc/install_devices_empty" := PyNone ]}
  = get_debconf_config bios_sdb
      (delete "grub-pc/install_devices_empty"
         {[ "grub-pc/install_devices_empty" := PyNone ]}).
Proof.
  apply (null_install_devices_empty_is_absent bios_sdb
           {[ "grub-pc/install_devices_empty" := PyNone ]}).
  reflexivity.
Defined.

(** X10. The formatter reads only the keys of its own boot mode: on an
    EFI machine two configurations that agree on
    [grub-efi/install_devices], and on a BIOS machine two that agree on
    [grub-pc/install_devices] and [grub-pc/install_devices_empty], give
    the same events and the same result. *)
Theorem formatter_reads_only_mode_keys (w : World)
    (c1 c2 : gmap string pyval) :
  (if path_exists w "/sys/firmware/efi"
   then c1 !! "grub-efi/install_devices" = c2 !! "grub-efi/install_devices"
   else c1 !! "grub-pc/install_devices" = c2 !! "grub-pc/install_devices"
        /\ c1 !! "grub-pc/install_devices_empty"
           = c2 !! "grub-pc/install_devices_empty") ->
  get_debconf_config w c1 = get_debconf_config w c2.
Proof.
  unfold get_debconf_config, is_efi_booted, util.get_cfg_option_str.
  rewrite !mret_bind.
  destruct (path_exists w "/sys/firmware/efi").
  - intros ->. reflexivity.
  - intros [-> ->]. reflexivity.
Qed.

Lemma formatter_reads_only_mode_keys_witness :
  get_debconf_config efi_amd64
    {[ "grub-pc/install_devices" := PyStr "/dev/sda" ]}
  = get_debconf_config efi_amd64 ∅.
Proof.
  apply (formatter_reads_only_mode_keys efi_amd64
           {[ "grub-pc/install_devices" := PyStr "/dev/sda" ]} ∅).
  reflexivity.
Defined.

(** X11. On an EFI machine every directive the formatter returns is the
    one line of an owner that [get_debconf_owner] answered and that is
    one of the three EFI packages. *)
Theorem efi_directive_names_valid_owner (w : World)
    (mycfg : gmap string pyval) (dconf_sel : string) :
  path_exists w "/sys/firmware/efi" = true ->
  result (get_debconf_config w mycfg) = Ok (Some dconf_sel) ->
  exists owner idevs,
    result (get_debconf_owner w) = Ok (Some owner)
    /\ In owner ["grub-efi-amd64"; "grub-efi-arm64"; "grub-efi-ia32"]
    /\ dconf_sel = owner +:+ " grub-efi/install_devices string "
                     +:+ idevs +:+ nl.
Proof.
  intros Hefi. rewrite (get_debconf_config_efi w mycfg Hefi).
  pose proof (get_debconf_owner_efi w Hefi) as Howner.
  destruct (result (get_debconf_owner w)) as [[owner|]|e];
    [|discriminate|discriminate].
  destruct (resolved_idevs _ _ _ _) as [idevs|e]; [|discriminate].
  intros [= <-]. exists owner, idevs. repeat split.
  destruct (run_subp w owners_cmd None) as [[out err]|e];
    [|discriminate].
  injection Howner as Howner. symmetry in Howner.
  now apply scan_owners_valid in Howner.
Qed.

Lemma efi_directive_names_valid_owner_witness :
  exists owner idevs,
    result (get_debconf_owner efi_ia32_first) = Ok (Some owner)
    /\ In owner ["grub-efi-amd64"; "grub-efi-arm64"; "grub-efi-ia32"]
    /\ "grub-efi-ia32 grub-efi/install_devices string /dev/sda" +:+ nl
       = owner +:+ " grub-efi/install_devices string " +:+ idevs +:+ nl.
Proof.
  apply (efi_directive_names_valid_owner efi_ia32_first
           {[ "grub-efi/install_devices" := PyStr "/dev/sda" ]});
    reflexivity.
Defined.

(** ** Further properties of the entry point *)


(** X12. The commands of a run of [handle]: none when the module is
    disabled; otherwise those of the formatter, followed, exactly when the
    formatter returned a directive, by one start of the setter, without
    arguments and with the directive, unchanged, as its standard input. *)
Theorem handle_commands (w : World) (name : string)
    (cfg : gmap string section) :
  commands (trace (handle w name cfg)) =
  if disabled (effective_cfg cfg) then []
  else
    commands (trace (get_debconf_config w (effective_cfg cfg)))
    ++ match result (get_debconf_config w (effective_cfg cfg)) with
       | Ok (Some dconf_sel) =>
           [(["debconf-set-selections"], Some dconf_sel)]
       | _ => []
       end.
Proof.
  rewrite handle_unfold.
  destruct (disabled (effective_cfg cfg)); [reflexivity|].
  unfold handle_enabled. rewrite trace_bind, commands_app. f_equal.
  destruct (result (get_debconf_config w (effective_cfg cfg)))
    as [[dconf_sel|]|e]; [|reflexivity|reflexivity].
  unfold subp. cbn.
  destruct (run_subp w _ _) as [out|e]; reflexivity.
Qed.





(** X15. When the cloud-config has the key [grub_dpkg], whatever is under
    it, the alias [grub-dpkg] is not consulted: changing or adding it
    changes nothing of the run. *)
Theorem alias_ignored_when_grub_dpkg_present (w : World) (name : string)
    (cfg : gmap string section) (sec other : section) :
  cfg !! "grub_dpkg" = Some sec ->
  handle w name (<["grub-dpkg" := other]> cfg) = handle w name cfg.
Proof.
  intros Hsec. unfold handle.
  rewrite lookup_insert_ne by discriminate. rewrite Hsec. reflexivity.
Qed.

Lemma alias_ignored_when_grub_dpkg_present_witness :
  handle bios_sdb "cc_grub_dpkg"
    (<["grub-dpkg" := SecDict {[ "enabled" := PyBool false ]}]>
       {[ "grub_dpkg" := SecNone ]})
  = handle bios_sdb "cc_grub_dpkg" {[ "grub_dpkg" := SecNone ]}.
Proof.
  apply (alias_ignored_when_grub_dpkg_present bios_sdb "cc_grub_dpkg"
           {[ "grub_dpkg" := SecNone ]} SecNone).
  reflexivity.
Defined.

Lemma fetch_idevs_benign (w : World) (mount_point : string)
    (reason : Reason) (stderr : string) :
  run_subp w (probe_cmd mount_point) None
    = Raise (ProcessExecutionError reason stderr) ->
  benign_probe_failure reason stderr = true ->
  exists t,
    fetch_idevs w mount_point = (t, Ok "")
    /\ commands t = [(probe_cmd mount_point, None)].
Proof.
  unfold probe_cmd, benign_probe_failure. intros Hprobe Hbenign.
  unfold fetch_idevs, subp. rewrite Hprobe. cbn.
  destruct (isinstance_FileNotFoundError reason); cbn in *.
  - eexists. split; reflexivity.
  - rewrite Hbenign. eexists. split; reflexivity.
Qed.

(** X16. In a container, as the module description has it: on a BIOS
    machine with the module enabled and neither grub-pc key configured,
    when the probe fails because grub-probe is missing or cannot
    canonicalize the path, the run starts the probe and then the setter,
    which is given an empty [install_devices] and [install_devices_empty]
    true, and ends normally. *)
Theorem container_seeds_empty_values (w : World) (name : string)
    (cfg : gmap string section) (reason : Reason) (stderr : string) :
  path_exists w "/sys/firmware/efi" = false ->
  disabled (effective_cfg cfg) = false ->
  effective_cfg cfg !! "grub-pc/install_devices" = None ->
  effective_cfg cfg !! "grub-pc/install_devices_empty" = None ->
  run_subp w (probe_cmd "/boot") None
    = Raise (ProcessExecutionError reason stderr) ->
  benign_probe_failure reason stderr = true ->
  commands (trace (handle w name cfg)) =
    [(probe_cmd "/boot", None);
     (["debconf-set-selections"],
      Some "grub-pc grub-pc/install_devices string 
grub-pc grub-pc/install_devices_empty boolean true
")]
  /\ result (handle w name cfg) = Ok tt.
Proof.
  intros Hbios Henabled Hidevs Hempty Hprobe Hbenign.
  destruct (fetch_idevs_benign w "/boot" reason stderr Hprobe Hbenign)
    as (t & Hfetch & Ht).
  assert (Hcfg : get_debconf_config w (effective_cfg cfg) =
                 (t, Ok (Some (bios_directive "" "true")))).
  { unfold get_debconf_config, is_efi_booted, util.get_cfg_option_str.
    rewrite mret_bind, Hbios, Hidevs, Hempty, Hfetch. cbn.
    now rewrite app_nil_r. }
  split.
  - rewrite handle_unfold, Henabled. unfold handle_enabled.
    rewrite trace_bind, commands_app, Hcfg. cbn [trace result fst snd].
    rewrite Ht. unfold subp. cbn. clear Hprobe.
    destruct (run_subp w _ _); reflexivity.
  - rewrite handle_unfold, Henabled, handle_enabled_result, Hcfg.
    reflexivity.
Qed.

Lemma container_seeds_empty_values_witness :
  result (handle bios_container "cc_grub_dpkg" ∅) = Ok tt.
Proof.
  eapply (container_seeds_empty_values bios_container "cc_grub_dpkg" ∅);
    reflexivity.
Defined.
